(** * Payload type registry of package [record] (record/record.go)

    A shallow embedding of the registry that maps envelope payload type
    identifiers to [Record] implementations, and of the dispatch functions
    built on it.

    Conventions of the model.

    - A Go [[]byte] is a [slice]: either the nil slice or a (possibly
      empty) sequence of bytes.  Slices are treated as values; the only
      slice the package writes to is the one [UnmarshalRecord] has just
      allocated with [make].
    - A Go [string] holds arbitrary bytes; [string(b)] and [[]byte(s)] are
      the Standard Library's [string_of_list_byte] and
      [list_byte_of_string].
    - The package variable [payloadTypeRegistry] and the heap of allocated
      objects form the [state]; every function is a state transformer that
      either returns or panics ([result]).
    - The types of the program are [DefaultRecord], the defined types the
      program declares (those that may carry methods: their underlying type
      is neither a pointer nor an interface), and pointers to these.
      Unnamed struct types with embedded fields are outside the model.
    - The methods a program declares for its payload types act on the
      receiver and the input bytes only; in particular they cannot reach
      the unexported [payloadTypeRegistry].
    - [range] over a Go map visits the entries in an unspecified order; the
      order is an explicit argument of [payloadTypeForRecord], and theorems
      quantify over every permutation of the registry's entries. *)

From Stdlib Require Import Strings.String Strings.Byte.
From stdpp Require Import gmap strings list fin_maps.

(** ** Byte slices *)

Inductive slice : Type :=
| SNil
| SBytes (l : list byte).

(** The bytes a slice holds; the nil slice holds none. *)
Definition slice_bytes (b : slice) : list byte :=
  match b with
  | SNil => []
  | SBytes l => l
  end.

Definition len (b : slice) : nat := length (slice_bytes b).

Definition is_nil (b : slice) : bool :=
  match b with
  | SNil => true
  | SBytes _ => false
  end.

(** [make([]byte, n)]: a non-nil slice of [n] zero bytes. *)
Definition make (n : nat) : slice := SBytes (replicate n Byte.x00).

(** [copy(dst, src)]: overwrites the first [min(len(dst), len(src))]
    elements of [dst]; the result is [dst] after the call. *)
Definition copy (dst src : slice) : slice :=
  match dst with
  | SNil => SNil
  | SBytes d =>
      let n := Nat.min (length d) (len src) in
      SBytes (take n (slice_bytes src) ++ drop n d)
  end.

(** [string(b)] *)
Definition string_of_slice (b : slice) : string :=
  string_of_list_byte (slice_bytes b).

(** [[]byte(k)]: always a non-nil slice. *)
Definition slice_of_string (k : string) : slice :=
  SBytes (list_byte_of_string k).

(** ** Results: a call returns or panics *)

Inductive result (A : Type) : Type :=
| Ok (a : A)
| Panic.
Arguments Ok {A} a.
Arguments Panic {A}.

(** ** reflect.Kind *)

Module reflect.

Inductive Kind : Set :=
| Invalid | Bool | Int | Int8 | Int16 | Int32 | Int64
| Uint | Uint8 | Uint16 | Uint32 | Uint64 | Uintptr
| Float32 | Float64 | Complex64 | Complex128
| Array | Chan | Func | Interface | Map | Ptr | Slice
| String | Struct | UnsafePointer.

#[global] Instance Kind_eq_dec : EqDecision Kind.
Proof. solve_decision. Defined.

(** The kinds a method receiver's base type may have: a defined type
    whose underlying type is a pointer or an interface declares no
    methods, and [Invalid] is the kind of no type. *)
Definition receiver_base (k : Kind) : bool :=
  match k with
  | Invalid | Ptr | Interface => false
  | _ => true
  end.

End reflect.

(** Heap addresses. *)
Definition loc : Type := positive.

Inductive Receiver : Set := ByValue | ByPointer.

#[global] Instance Receiver_eq_dec : EqDecision Receiver.
Proof. solve_decision. Defined.

Section Program.

(** The program that uses the package: the names of its defined types,
    the values these types have, and its error values. *)
Variable tyname : Type.
Context `{EqDecision tyname}.
Variable value : Type.
Variable E : Type.

(** Go's [error]: nil or an error value. *)
Definition error : Type := option E.

(** *** Type descriptors ([reflect.Type]) *)

Inductive rtype : Type :=
| TDefaultRecord
| TUser (n : tyname)
| TPtr (elem : rtype).

#[global] Instance rtype_eq_dec : EqDecision rtype.
Proof. solve_decision. Defined.

(** The two methods of the [Record] interface as a type declares them,
    each with its receiver.  [None] is a panic of the method.
    [MarshalRecord_impl] returns the receiver after the call as well. *)
Record Methods : Type := {
  marshal_recv : Receiver;
  MarshalRecord_impl : value -> option (value * (slice * error));
  unmarshal_recv : Receiver;
  UnmarshalRecord_impl : slice -> value -> option (value * error)
}.

Record TypeDecl : Type := {
  decl_kind : reflect.Kind;
  decl_kind_recv : reflect.receiver_base decl_kind = true;
  decl_zero : value;
  decl_methods : option Methods
}.

Variable decls : tyname -> TypeDecl.

(** *** Values *)

Record DefaultRecord : Type := { Contents : slice }.

Inductive gvalue : Type :=
| VDefaultRecord (r : DefaultRecord)
| VUser (n : tyname) (v : value)
| VPtr (elem : rtype) (p : option loc).

(** An interface value ([interface{}], [Record]): nil, or a value
    together with its dynamic type, which [dyn_type] reads off. *)
Definition iface : Type := option gvalue.

Definition dyn_type (v : gvalue) : rtype :=
  match v with
  | VDefaultRecord _ => TDefaultRecord
  | VUser n _ => TUser n
  | VPtr elem _ => TPtr elem
  end.

Definition zero_value (t : rtype) : gvalue :=
  match t with
  | TDefaultRecord => VDefaultRecord {| Contents := SNil |}
  | TUser n => VUser n (decl_zero (decls n))
  | TPtr elem => VPtr elem None
  end.

(** *** Method sets and the [Record] interface *)

(** Receivers of [MarshalRecord] and [UnmarshalRecord] declared for a
    non-pointer type.  [DefaultRecord] declares both on [*DefaultRecord]. *)
Definition declared_receivers (t : rtype) : option (Receiver * Receiver) :=
  match t with
  | TDefaultRecord => Some (ByPointer, ByPointer)
  | TUser n =>
      match decl_methods (decls n) with
      | Some m => Some (marshal_recv m, unmarshal_recv m)
      | None => None
      end
  | TPtr _ => None
  end.

(** Whether the method set of [t] contains both methods of [Record]:
    the method set of [T] has the methods with receiver [T], that of
    [*T] the methods with receiver [T] or [*T]. *)
Definition implementsRecord (t : rtype) : bool :=
  match t with
  | TPtr elem =>
      match declared_receivers elem with
      | Some _ => true
      | None => false
      end
  | _ =>
      match declared_receivers t with
      | Some (ByValue, ByValue) => true
      | _ => false
      end
  end.

(** A value of static type [Record]: nil, or a value whose dynamic type
    implements the interface. *)
Definition well_typed_Record (rec : iface) : bool :=
  match rec with
  | None => true
  | Some v => implementsRecord (dyn_type v)
  end.

(** *** State *)

Record state : Type := {
  payloadTypeRegistry : gmap string rtype;
  heap : gmap loc gvalue
}.

Definition set_registry (f : gmap string rtype -> gmap string rtype)
    (s : state) : state :=
  {| payloadTypeRegistry := f (payloadTypeRegistry s); heap := heap s |}.

Definition set_heap (f : gmap loc gvalue -> gmap loc gvalue)
    (s : state) : state :=
  {| payloadTypeRegistry := payloadTypeRegistry s; heap := f (heap s) |}.

(** [var payloadTypeRegistry = make(map[string]reflect.Type)] *)
Definition init_state (h : gmap loc gvalue) : state :=
  {| payloadTypeRegistry := ∅; heap := h |}.

(** *** The monad of package functions *)

Definition M (A : Type) : Type := state -> result A * state.

Definition ret {A} (a : A) : M A := fun s => (Ok a, s).

Definition panic {A} : M A := fun s => (Panic, s).

Definition bind {A B} (m : M A) (k : A -> M B) : M B :=
  fun s =>
    match m s with
    | (Ok a, s') => k a s'
    | (Panic, s') => (Panic, s')
    end.

Definition get : M state := fun s => (Ok s, s).

Definition modify (f : state -> state) : M unit := fun s => (Ok tt, f s).

Definition lift {A} (r : result A) : M A := fun s => (r, s).

#[global] Instance M_ret : MRet M := @ret.
#[global] Instance M_bind : MBind M := fun A B k m => bind m k.

(** Allocation of a fresh object. *)
Definition alloc (v : gvalue) : M loc :=
  fun s =>
    let l := fresh (dom (heap s)) in
    (Ok l, set_heap <[l := v]> s).

(** *** Package reflect

    The functions of Go's [reflect] that the package calls, on the types
    of the model. *)

(** [reflect.TypeOf(i)]: the dynamic type; the nil [Type] for a nil
    interface value. *)
Definition TypeOf (i : iface) : option rtype := dyn_type <$> i.

Definition Type_Kind (t : rtype) : reflect.Kind :=
  match t with
  | TDefaultRecord => reflect.Struct
  | TUser n => decl_kind (decls n)
  | TPtr _ => reflect.Ptr
  end.

(** [t.Elem()] panics unless [t] has an element type. *)
Definition Type_Elem (t : rtype) : result rtype :=
  match t with
  | TPtr elem => Ok elem
  | _ => Panic
  end.

(** Defined types have a name, pointer types do not. *)
Definition hasName (t : rtype) : bool :=
  match t with
  | TPtr _ => false
  | _ => true
  end.

(** Only reached for two types of the same kind of which one has no
    name; here these are pointer types, identical when their element
    types are. *)
Definition haveIdenticalUnderlyingType (T V : rtype) : bool :=
  match T, V with
  | TPtr a, TPtr b => bool_decide (a = b)
  | _, _ => false
  end.

Definition directlyAssignable (T V : rtype) : bool :=
  if bool_decide (T = V) then true
  else if (hasName T && hasName V)
          || negb (bool_decide (Type_Kind T = Type_Kind V)) then false
  else haveIdenticalUnderlyingType T V.

(** No type of the model is an interface type: [DefaultRecord] is a
    struct, a type the program declares has a receiver-base kind, and the
    rest are pointers. *)
Lemma Type_Kind_not_Interface (t : rtype) :
  Type_Kind t <> reflect.Interface.
Proof.
  destruct t as [|n|e]; cbn; try discriminate.
  pose proof (decl_kind_recv (decls n)) as Hk.
  intros Heq. rewrite Heq in Hk. discriminate.
Qed.

(** [implements(T, V)] returns false at once unless [T] is an interface
    type; by [Type_Kind_not_Interface] the comparison of method sets that
    follows is never reached. *)
Definition implements (T V : rtype) : bool :=
  match decide (Type_Kind T = reflect.Interface) with
  | right _ => false
  | left Hk => match Type_Kind_not_Interface T Hk return bool with end
  end.

(** [t.AssignableTo(u)] *)
Definition Type_AssignableTo (t u : rtype) : bool :=
  directlyAssignable u t || implements u t.

(** [reflect.New(typ).Interface()]: a pointer to a new zero value of
    [typ], as an interface value of dynamic type [*typ]. *)
Definition New_Interface (typ : rtype) : M gvalue :=
  l ← alloc (zero_value typ);
  ret (VPtr typ (Some l)).

(** The type assertion [i.(Record)] panics when the dynamic type does
    not implement [Record]. *)
Definition assert_Record (v : gvalue) : M iface :=
  if implementsRecord (dyn_type v) then ret (Some v) else panic.

(** *** Methods of DefaultRecord (on the receiver [*r]) *)

Definition DefaultRecord_MarshalRecord (r : DefaultRecord)
    : slice * error :=
  (Contents r, None).

Definition DefaultRecord_UnmarshalRecord (data : slice)
    (r : DefaultRecord) : DefaultRecord * error :=
  let r1 := {| Contents := make (len data) |} in
  let r2 := {| Contents := copy (Contents r1) data |} in
  (r2, None).

(** *** Dynamic dispatch of the [Record] methods

    A method with a pointer receiver writes the receiver back to the
    heap; one with a value receiver works on a copy.  Calls through a
    nil interface or a nil pointer panic. *)

Definition Record_UnmarshalRecord (rec : iface) (data : slice) : M error :=
  match rec with
  | Some (VPtr TDefaultRecord (Some l)) =>
      s ← get;
      match heap s !! l with
      | Some (VDefaultRecord r) =>
          let '(r', err) := DefaultRecord_UnmarshalRecord data r in
          _ ← modify (set_heap <[l := VDefaultRecord r']>);
          ret err
      | _ => panic
      end
  | Some (VPtr (TUser n) (Some l)) =>
      s ← get;
      match decl_methods (decls n), heap s !! l with
      | Some m, Some (VUser n' v) =>
          match UnmarshalRecord_impl m data v with
          | Some (v', err) =>
              match unmarshal_recv m with
              | ByPointer =>
                  _ ← modify (set_heap <[l := VUser n' v']>);
                  ret err
              | ByValue => ret err
              end
          | None => panic
          end
      | _, _ => panic
      end
  | Some (VUser n v) =>
      match decl_methods (decls n) with
      | Some m =>
          match unmarshal_recv m, UnmarshalRecord_impl m data v with
          | ByValue, Some (_, err) => ret err
          | _, _ => panic
          end
      | None => panic
      end
  | _ => panic
  end.

Definition Record_MarshalRecord (rec : iface) : M (slice * error) :=
  match rec with
  | Some (VPtr TDefaultRecord (Some l)) =>
      s ← get;
      match heap s !! l with
      | Some (VDefaultRecord r) => ret (DefaultRecord_MarshalRecord r)
      | _ => panic
      end
  | Some (VPtr (TUser n) (Some l)) =>
      s ← get;
      match decl_methods (decls n), heap s !! l with
      | Some m, Some (VUser n' v) =>
          match MarshalRecord_impl m v with
          | Some (v', out) =>
              match marshal_recv m with
              | ByPointer =>
                  _ ← modify (set_heap <[l := VUser n' v']>);
                  ret out
              | ByValue => ret out
              end
          | None => panic
          end
      | _, _ => panic
      end
  | Some (VUser n v) =>
      match decl_methods (decls n) with
      | Some m =>
          match marshal_recv m, MarshalRecord_impl m v with
          | ByValue, Some (_, out) => ret out
          | _, _ => panic
          end
      | None => panic
      end
  | _ => panic
  end.

(** *** Package record *)

(** [getValueType]: [valueType.Kind()] on the nil [Type] of a nil
    interface value panics. *)
Definition getValueType (i : iface) : result rtype :=
  match TypeOf i with
  | None => Panic
  | Some valueType =>
      if bool_decide (Type_Kind valueType = reflect.Ptr)
      then Type_Elem valueType
      else Ok valueType
  end.

Definition RegisterPayloadType (payloadType : slice) (prototype : iface)
    : M unit :=
  t ← lift (getValueType prototype);
  modify (set_registry <[string_of_slice payloadType := t]>).

Definition blankRecordForPayloadType (payloadType : slice)
    : M (iface * error) :=
  s ← get;
  match payloadTypeRegistry s !! string_of_slice payloadType with
  | None =>
      l ← alloc (VDefaultRecord {| Contents := SNil |});
      ret (Some (VPtr TDefaultRecord (Some l)), None)
  | Some valueType =>
      val ← New_Interface valueType;
      asRecord ← assert_Record val;
      ret (asRecord, None)
  end.

Definition unmarshalRecordPayload (payloadType payloadBytes : slice)
    : M (iface * error) :=
  '(rec, err) ← blankRecordForPayloadType payloadType;
  match err with
  | Some _ => ret (None, err)
  | None =>
      err ← Record_UnmarshalRecord rec payloadBytes;
      match err with
      | Some _ => ret (None, err)
      | None => ret (rec, None)
      end
  end.

(** The [for k, t := range payloadTypeRegistry] loop of
    [payloadTypeForRecord], over the entries in the order visited. *)
Fixpoint range_registry (valueType : rtype)
    (entries : list (string * rtype)) : slice * bool :=
  match entries with
  | [] => (SBytes [], false)
  | (k, t) :: rest =>
      if Type_AssignableTo t valueType then (slice_of_string k, true)
      else range_registry valueType rest
  end.

Definition payloadTypeForRecord (order : list (string * rtype))
    (rec : iface) : M (slice * bool) :=
  valueType ← lift (getValueType rec);
  ret (range_registry valueType order).

(** An iteration order of the registry of [s]. *)
Definition iteration_order (s : state) (order : list (string * rtype))
    : Prop :=
  order ≡ₚ map_to_list (payloadTypeRegistry s).

(** The state after a call, and what the call returned. *)
Definition exec {A} (m : M A) (s : state) : state := (m s).2.
Definition eval {A} (m : M A) (s : state) : result A := (m s).1.

(** *** Histories

    [steps s tags s']: the process gets from state [s] to state [s'] while
    [tags] are the payload types passed to [RegisterPayloadType] on the
    way.  Between registrations the rest of the program (and the dispatch
    functions) may change the heap only, the registry being unexported and
    written by [RegisterPayloadType] alone. *)
Inductive steps : state -> list (list byte) -> state -> Prop :=
| steps_refl s :
    steps s [] s
| steps_register s tags s' payloadType prototype :
    steps s tags s' ->
    steps s (slice_bytes payloadType :: tags)
          (exec (RegisterPayloadType payloadType prototype) s')
| steps_heap s tags s' f :
    steps s tags s' ->
    steps s tags (set_heap f s').

(** [reachable tags s]: [s] is a state of a process that has registered
    [tags] since start-up, when the registry was empty. *)
Definition reachable (tags : list (list byte)) (s : state) : Prop :=
  exists h, steps (init_state h) tags s.

(** The registry holds only types whose pointer type implements
    [Record], so that the assertion [val.Interface().(Record)] of
    [blankRecordForPayloadType] holds. *)
Definition registry_ok (s : state) : Prop :=
  forall k t, payloadTypeRegistry s !! k = Some t ->
              implementsRecord (TPtr t) = true.

(** ** Slices and strings *)

Lemma take_drop_replicate {A} (x : A) (l : list A) :
  take (length l) l ++ drop (length l) (replicate (length l) x) = l.
Proof.
  rewrite firstn_all. rewrite drop_ge; [apply app_nil_r|].
  by rewrite length_replicate.
Qed.

Lemma copy_make (data : slice) :
  copy (make (len data)) data = SBytes (slice_bytes data).
Proof.
  unfold copy, make, len. rewrite length_replicate, Nat.min_id.
  f_equal. apply take_drop_replicate.
Qed.

Lemma DefaultRecord_UnmarshalRecord_eq (data : slice) (r : DefaultRecord) :
  DefaultRecord_UnmarshalRecord data r
  = ({| Contents := SBytes (slice_bytes data) |}, None).
Proof.
  unfold DefaultRecord_UnmarshalRecord. cbn [Contents].
  by rewrite copy_make.
Qed.

Lemma string_of_slice_inj (a b : slice) :
  string_of_slice a = string_of_slice b <-> slice_bytes a = slice_bytes b.
Proof.
  unfold string_of_slice. split; [|congruence].
  intros Heq.
  rewrite <- (list_byte_of_string_of_list_byte (slice_bytes a)).
  rewrite <- (list_byte_of_string_of_list_byte (slice_bytes b)).
  by rewrite Heq.
Qed.

Lemma slice_of_string_of_slice (b : slice) :
  slice_bytes (slice_of_string (string_of_slice b)) = slice_bytes b.
Proof. apply list_byte_of_string_of_list_byte. Qed.

(** ** Running the monad *)

Ltac run :=
  unfold eval, exec, mbind, mret, M_bind, M_ret, bind, ret, panic, get,
    modify, lift, alloc in *; cbn [fst snd] in *.


(** ** Kinds and value types *)

Lemma Type_Kind_user_not_Ptr (n : tyname) :
  Type_Kind (TUser n) <> reflect.Ptr.
Proof.
  cbn. pose proof (decl_kind_recv (decls n)) as Hk.
  intros Heq. rewrite Heq in Hk. discriminate.
Qed.

Lemma Type_Kind_Ptr (t : rtype) :
  Type_Kind t = reflect.Ptr <-> exists elem, t = TPtr elem.
Proof.
  split.
  - destruct t as [|n|e]; [discriminate| |by eexists].
    intros Hk. by destruct (Type_Kind_user_not_Ptr n).
  - by intros [e ->].
Qed.

Lemma getValueType_ptr (elem : rtype) (p : option loc) :
  getValueType (Some (VPtr elem p)) = Ok elem.
Proof. reflexivity. Qed.

Lemma getValueType_user (n : tyname) (v : value) :
  getValueType (Some (VUser n v)) = Ok (TUser n).
Proof.
  unfold getValueType. cbn [TypeOf fmap option_fmap option_map dyn_type].
  rewrite bool_decide_eq_false_2; [done|apply Type_Kind_user_not_Ptr].
Qed.

Lemma getValueType_DefaultRecord (r : DefaultRecord) :
  getValueType (Some (VDefaultRecord r)) = Ok TDefaultRecord.
Proof. reflexivity. Qed.

(** [getValueType] panics on the nil interface value only. *)
Lemma getValueType_Some (v : gvalue) :
  exists t, getValueType (Some v) = Ok t.
Proof.
  destruct v; eexists;
    [apply getValueType_DefaultRecord|apply getValueType_user
    |apply getValueType_ptr].
Qed.

(** The method set of [*T] includes that of [T]. *)
Lemma implementsRecord_ptr_of_value (n : tyname) :
  implementsRecord (TUser n) = true ->
  implementsRecord (TPtr (TUser n)) = true.
Proof.
  unfold implementsRecord, declared_receivers.
  by destruct (decl_methods (decls n)).
Qed.

Lemma well_typed_value_type (v : gvalue) (t : rtype) :
  well_typed_Record (Some v) = true ->
  getValueType (Some v) = Ok t ->
  implementsRecord (TPtr t) = true.
Proof.
  destruct v as [r|n v|e p]; cbn [well_typed_Record dyn_type].
  - discriminate.
  - rewrite getValueType_user. intros Hi [= <-].
    by apply implementsRecord_ptr_of_value.
  - rewrite getValueType_ptr. by intros Hi [= <-].
Qed.

(** ** Assignability *)

Lemma Type_AssignableTo_refl (t : rtype) : Type_AssignableTo t t = true.
Proof.
  unfold Type_AssignableTo, directlyAssignable.
  by rewrite bool_decide_eq_true_2.
Qed.

Lemma implements_false (T V : rtype) : implements T V = false.
Proof.
  unfold implements.
  destruct (decide (Type_Kind T = reflect.Interface)) as [Hk|]; [|done].
  destruct (Type_Kind_not_Interface T Hk).
Qed.

(** On the types of the model assignability is identity. *)
Lemma Type_AssignableTo_eq (t u : rtype) :
  Type_AssignableTo t u = true <-> t = u.
Proof.
  split; [|intros ->; apply Type_AssignableTo_refl].
  unfold Type_AssignableTo. rewrite implements_false, orb_false_r.
  unfold directlyAssignable. case_bool_decide as Heq; [done|].
  destruct (_ || _) eqn:Hnk; [done|].
  destruct u as [|n|a], t as [|n'|b]; cbn; try discriminate.
  intros Hab%bool_decide_eq_true. congruence.
Qed.

(** ** The registry *)

Lemma RegisterPayloadType_Ok (payloadType : slice) (prototype : iface)
    (t : rtype) (s : state) :
  getValueType prototype = Ok t ->
  RegisterPayloadType payloadType prototype s
  = (Ok tt, set_registry <[string_of_slice payloadType := t]> s).
Proof. intros Ht. unfold RegisterPayloadType. run. by rewrite Ht. Qed.

Lemma RegisterPayloadType_Panic (payloadType : slice) (prototype : iface)
    (s : state) :
  getValueType prototype = Panic ->
  RegisterPayloadType payloadType prototype s = (Panic, s).
Proof. intros Ht. unfold RegisterPayloadType. run. by rewrite Ht. Qed.

Lemma RegisterPayloadType_heap (payloadType : slice) (prototype : iface)
    (s : state) :
  heap (exec (RegisterPayloadType payloadType prototype) s) = heap s.
Proof.
  unfold RegisterPayloadType. run.
  by destruct (getValueType prototype).
Qed.

Lemma RegisterPayloadType_lookup_ne (payloadType : slice)
    (prototype : iface) (s : state) (k : string) :
  k <> string_of_slice payloadType ->
  payloadTypeRegistry (exec (RegisterPayloadType payloadType prototype) s)
    !! k
  = payloadTypeRegistry s !! k.
Proof.
  intros Hne. unfold RegisterPayloadType. run.
  destruct (getValueType prototype); [|done].
  cbn. by rewrite lookup_insert_ne.
Qed.

(** Registrations under other tags leave the entry of a tag alone. *)
Lemma steps_lookup (s s' : state) (tags : list (list byte)) (tag : slice) :
  steps s tags s' ->
  slice_bytes tag ∉ tags ->
  payloadTypeRegistry s' !! string_of_slice tag
  = payloadTypeRegistry s !! string_of_slice tag.
Proof.
  induction 1 as [s|s tags s' pt proto Hs IH|s tags s' f Hs IH];
    intros Hnot.
  - done.
  - apply not_elem_of_cons in Hnot as [Hne Hnot].
    rewrite RegisterPayloadType_lookup_ne; [by apply IH|].
    intros Heq%string_of_slice_inj. done.
  - by apply IH.
Qed.

(** A tag never registered is absent from the registry. *)
Lemma reachable_unregistered (tags : list (list byte)) (s : state)
    (tag : slice) :
  reachable tags s ->
  slice_bytes tag ∉ tags ->
  payloadTypeRegistry s !! string_of_slice tag = None.
Proof.
  intros [h Hs] Hnot. by rewrite (steps_lookup _ _ _ _ Hs Hnot).
Qed.

(** ** Blank records *)

Lemma blankRecordForPayloadType_unregistered (payloadType : slice)
    (s : state) :
  payloadTypeRegistry s !! string_of_slice payloadType = None ->
  blankRecordForPayloadType payloadType s
  = (Ok (Some (VPtr TDefaultRecord (Some (fresh (dom (heap s))))), None),
     set_heap <[fresh (dom (heap s))
                := VDefaultRecord {| Contents := SNil |}]> s).
Proof. intros Hk. unfold blankRecordForPayloadType. run. by rewrite Hk. Qed.

Lemma blankRecordForPayloadType_registered (payloadType : slice)
    (t : rtype) (s : state) :
  payloadTypeRegistry s !! string_of_slice payloadType = Some t ->
  implementsRecord (TPtr t) = true ->
  blankRecordForPayloadType payloadType s
  = (Ok (Some (VPtr t (Some (fresh (dom (heap s))))), None),
     set_heap <[fresh (dom (heap s)) := zero_value t]> s).
Proof.
  intros Hk Hi. unfold blankRecordForPayloadType, New_Interface,
    assert_Record. run.
  rewrite Hk. cbn [dyn_type]. by rewrite Hi.
Qed.

Lemma fresh_heap_None (s : state) : heap s !! fresh (dom (heap s)) = None.
Proof. apply not_elem_of_dom, is_fresh. Qed.


(** ** Method calls on freshly allocated records *)

Lemma Record_UnmarshalRecord_DefaultRecord (l : loc) (r : DefaultRecord)
    (data : slice) (s : state) :
  heap s !! l = Some (VDefaultRecord r) ->
  Record_UnmarshalRecord (Some (VPtr TDefaultRecord (Some l))) data s
  = (Ok None,
     set_heap <[l := VDefaultRecord
                       {| Contents := SBytes (slice_bytes data) |}]> s).
Proof.
  intros Hl. unfold Record_UnmarshalRecord. run.
  by rewrite Hl, DefaultRecord_UnmarshalRecord_eq.
Qed.

Lemma Record_UnmarshalRecord_user (l : loc) (n : tyname) (m : Methods)
    (v : value) (data : slice) (s : state) :
  decl_methods (decls n) = Some m ->
  heap s !! l = Some (VUser n v) ->
  Record_UnmarshalRecord (Some (VPtr (TUser n) (Some l))) data s
  = match UnmarshalRecord_impl m data v with
    | Some (v', err) =>
        (Ok err,
         match unmarshal_recv m with
         | ByPointer => set_heap <[l := VUser n v']> s
         | ByValue => s
         end)
    | None => (Panic, s)
    end.
Proof.
  intros Hm Hl. unfold Record_UnmarshalRecord. run.
  rewrite Hm, Hl.
  destruct (UnmarshalRecord_impl m data v) as [[v' err]|]; [|done].
  by destruct (unmarshal_recv m).
Qed.

(** No method call writes the registry. *)
Lemma Record_UnmarshalRecord_registry (rec : iface) (data : slice)
    (s : state) :
  payloadTypeRegistry (exec (Record_UnmarshalRecord rec data) s)
  = payloadTypeRegistry s.
Proof.
  unfold Record_UnmarshalRecord. run.
  repeat (match goal with
          | |- context [match ?x with _ => _ end] => destruct x
          end; cbn; try done).
Qed.

Lemma blankRecordForPayloadType_registry (payloadType : slice)
    (s : state) :
  payloadTypeRegistry (exec (blankRecordForPayloadType payloadType) s)
  = payloadTypeRegistry s.
Proof.
  unfold blankRecordForPayloadType, New_Interface, assert_Record. run.
  destruct (payloadTypeRegistry s !! _) as [t|]; [|done].
  cbn [dyn_type]. by destruct (implementsRecord (TPtr t)).
Qed.

Lemma mbind_Ok {A B} (m : M A) (k : A -> M B) (s s' : state) (a : A) :
  m s = (Ok a, s') -> (m ≫= k) s = k a s'.
Proof. intros Hm. unfold mbind, M_bind, bind. by rewrite Hm. Qed.

Lemma unmarshalRecordPayload_unregistered (payloadType b : slice)
    (s : state) :
  payloadTypeRegistry s !! string_of_slice payloadType = None ->
  let l := fresh (dom (heap s)) in
  unmarshalRecordPayload payloadType b s
  = (Ok (Some (VPtr TDefaultRecord (Some l)), None),
     set_heap <[l := VDefaultRecord
                       {| Contents := SBytes (slice_bytes b) |}]>
       (set_heap <[l := VDefaultRecord {| Contents := SNil |}]> s)).
Proof.
  intros Hk l. unfold unmarshalRecordPayload.
  erewrite mbind_Ok
    by exact (blankRecordForPayloadType_unregistered _ _ Hk).
  cbv beta iota. erewrite mbind_Ok.
  2: { eapply Record_UnmarshalRecord_DefaultRecord.
       cbn. apply lookup_insert_eq. }
  done.
Qed.

(** ** The fallback payload *)

(** C1. For every byte slice [b] (nil and empty included) and every
    prior contents [r0] of a [DefaultRecord] at address [l], the call
    [UnmarshalRecord(b)] on the pointer returns a nil error, and a
    following [MarshalRecord()] returns a nil error and a slice holding
    exactly the bytes of [b]. *)
Theorem C1_DefaultRecord_roundtrip (b : slice) (r0 : DefaultRecord)
    (l : loc) (s : state) :
  heap s !! l = Some (VDefaultRecord r0) ->
  let rec := Some (VPtr TDefaultRecord (Some l)) in
  let s1 := exec (Record_UnmarshalRecord rec b) s in
  eval (Record_UnmarshalRecord rec b) s = Ok None /\
  exists out : slice,
    eval (Record_MarshalRecord rec) s1 = Ok (out, None) /\
    slice_bytes out = slice_bytes b.
Proof.
  intros Hl rec s1. subst rec s1.
  unfold Record_UnmarshalRecord, Record_MarshalRecord. run.
  rewrite Hl, DefaultRecord_UnmarshalRecord_eq. cbn.
  split; [done|].
  rewrite lookup_insert_eq.
  exists (SBytes (slice_bytes b)). by split.
Qed.


(** ** Decoding *)

(** C2. In every state the process reaches, for every tag that was
    never passed to [RegisterPayloadType] and every byte slice [b],
    [unmarshalRecordPayload(tag, b)] returns a nil error and a pointer
    to a [DefaultRecord] whose [Contents] hold exactly the bytes of
    [b]. *)
Theorem C2_unregistered_tag_decodes_to_DefaultRecord
    (tags : list (list byte)) (s : state) (tag b : slice) :
  reachable tags s ->
  slice_bytes tag ∉ tags ->
  exists (l : loc) (r : DefaultRecord),
    eval (unmarshalRecordPayload tag b) s
    = Ok (Some (VPtr TDefaultRecord (Some l)), None) /\
    heap (exec (unmarshalRecordPayload tag b) s) !! l
    = Some (VDefaultRecord r) /\
    slice_bytes (Contents r) = slice_bytes b.
Proof.
  intros Hr Hnot.
  pose proof (reachable_unregistered tags s tag Hr Hnot) as Hk.
  exists (fresh (dom (heap s))),
    {| Contents := SBytes (slice_bytes b) |}.
  unfold eval, exec.
  rewrite (unmarshalRecordPayload_unregistered _ _ _ Hk). cbn.
  by rewrite lookup_insert_eq.
Qed.

(** C4. For a tag registered with a type [n] of the program: when the
    type's [UnmarshalRecord] fails with error [e] on input [x] (called,
    as the decode path does, on a blank instance), then
    [unmarshalRecordPayload(T, x)] returns the nil record together with
    that very error [e]. *)
Theorem C4_decode_failure_propagates (T x : slice) (n : tyname)
    (m : Methods) (v' : value) (e : E) (s : state) :
  payloadTypeRegistry s !! string_of_slice T = Some (TUser n) ->
  decl_methods (decls n) = Some m ->
  UnmarshalRecord_impl m x (decl_zero (decls n)) = Some (v', Some e) ->
  eval (unmarshalRecordPayload T x) s = Ok (None, Some e).
Proof.
  intros Hk Hm Hu.
  assert (implementsRecord (TPtr (TUser n)) = true) as Hi.
  { unfold implementsRecord, declared_receivers. by rewrite Hm. }
  unfold unmarshalRecordPayload, eval.
  erewrite mbind_Ok
    by exact (blankRecordForPayloadType_registered _ _ _ Hk Hi).
  cbv beta iota. unfold mbind, M_bind, bind.
  erewrite Record_UnmarshalRecord_user;
    [|exact Hm|cbn; apply lookup_insert_eq].
  by rewrite Hu.
Qed.


(** ** Registration and blank records *)

Lemma registered_lookup (T : slice) (t : rtype) (p : option loc)
    (s0 : state) :
  payloadTypeRegistry (exec (RegisterPayloadType T (Some (VPtr t p))) s0)
    !! string_of_slice T
  = Some t.
Proof.
  unfold exec. rewrite (RegisterPayloadType_Ok _ _ t) by done.
  cbn. apply lookup_insert_eq.
Qed.

(** C3. Let [T] be registered by [RegisterPayloadType(T, &Foo{})] for a
    type [Foo] of the program, and let [s] be any later state in which [T]
    has not been registered again.  A call [blankRecordForPayloadType(T)]
    in [s] returns a nil error and a [*Foo] (never a [*DefaultRecord])
    that points to a newly allocated address [l1] holding the zero value
    of [Foo].  In any state [s2] after that call in which [T] has not been
    registered again and the first instance lives on with whatever value
    [v] the caller gave it, a further call returns a pointer to a
    different address [l2], again holding the zero value of [Foo], and
    leaves the object at [l1] as it was. *)
Theorem C3_registered_tag_resolves_to_fresh_zero_instance
    (T : slice) (Foo : tyname) (p : option loc) (s0 s s2 : state)
    (tags tags2 : list (list byte)) (v : gvalue) :
  well_typed_Record (Some (VPtr (TUser Foo) p)) = true ->
  steps (exec (RegisterPayloadType T (Some (VPtr (TUser Foo) p))) s0)
        tags s ->
  slice_bytes T ∉ tags ->
  let l1 := fresh (dom (heap s)) in
  let s1 := exec (blankRecordForPayloadType T) s in
  steps s1 tags2 s2 ->
  slice_bytes T ∉ tags2 ->
  heap s2 !! l1 = Some v ->
  let l2 := fresh (dom (heap s2)) in
  let s3 := exec (blankRecordForPayloadType T) s2 in
  (eval (blankRecordForPayloadType T) s
   = Ok (Some (VPtr (TUser Foo) (Some l1)), None) /\
   TPtr (TUser Foo) <> TPtr TDefaultRecord /\
   heap s !! l1 = None /\
   heap s1 !! l1 = Some (zero_value (TUser Foo))) /\
  (eval (blankRecordForPayloadType T) s2
   = Ok (Some (VPtr (TUser Foo) (Some l2)), None) /\
   l2 <> l1 /\
   heap s3 !! l2 = Some (zero_value (TUser Foo)) /\
   heap s3 !! l1 = Some v).
Proof.
  intros Hwt Hs Hnot l1 s1 Hs2 Hnot2 Hl1 l2 s3.
  assert (payloadTypeRegistry s !! string_of_slice T = Some (TUser Foo))
    as Hk.
  { rewrite (steps_lookup _ _ _ _ Hs Hnot). apply registered_lookup. }
  assert (payloadTypeRegistry s2 !! string_of_slice T = Some (TUser Foo))
    as Hk2.
  { rewrite (steps_lookup _ _ _ _ Hs2 Hnot2). subst s1.
    by rewrite blankRecordForPayloadType_registry. }
  assert (l2 <> l1) as Hne.
  { intros Heq. pose proof (fresh_heap_None s2) as Hf.
    fold l2 in Hf. rewrite Heq, Hl1 in Hf. discriminate. }
  subst s1 s3. unfold eval, exec.
  rewrite (blankRecordForPayloadType_registered _ _ s2 Hk2 Hwt).
  rewrite (blankRecordForPayloadType_registered _ _ s Hk Hwt).
  cbn [fst snd]. fold l1. fold l2. split; [|split]; repeat split.
  - discriminate.
  - apply fresh_heap_None.
  - cbn. apply lookup_insert_eq.
  - done.
  - cbn. apply lookup_insert_eq.
  - cbn. rewrite lookup_insert_ne by done. exact Hl1.
Qed.

(** C5. After [RegisterPayloadType(T, &Foo{})] followed by
    [RegisterPayloadType(T, &Bar{})], in every later state [s] in which
    [T] has not been registered again, the registry maps [T] to [Bar] and
    [blankRecordForPayloadType(T)] returns a nil error and a pointer to a
    new zero value of [Bar]; its type is [*Foo] only if [Foo] is [Bar]. *)
Theorem C5_reregistration_overwrites (T : slice) (Foo Bar : rtype)
    (p q : option loc) (s0 s : state) (tags : list (list byte)) :
  well_typed_Record (Some (VPtr Bar q)) = true ->
  let s1 := exec (RegisterPayloadType T (Some (VPtr Foo p))) s0 in
  let s2 := exec (RegisterPayloadType T (Some (VPtr Bar q))) s1 in
  steps s2 tags s ->
  slice_bytes T ∉ tags ->
  let l := fresh (dom (heap s)) in
  payloadTypeRegistry s !! string_of_slice T = Some Bar /\
  eval (blankRecordForPayloadType T) s
  = Ok (Some (VPtr Bar (Some l)), None) /\
  heap (exec (blankRecordForPayloadType T) s) !! l
  = Some (zero_value Bar) /\
  (Foo <> Bar -> dyn_type (VPtr Bar (Some l)) <> TPtr Foo).
Proof.
  intros Hwt s1 s2 Hs Hnot l.
  assert (payloadTypeRegistry s !! string_of_slice T = Some Bar) as Hk.
  { rewrite (steps_lookup _ _ _ _ Hs Hnot). apply registered_lookup. }
  unfold eval, exec.
  rewrite (blankRecordForPayloadType_registered _ _ s Hk Hwt).
  cbn [fst snd]. repeat split; [done| |].
  - cbn. apply lookup_insert_eq.
  - cbn. congruence.
Qed.

(** ** Reverse lookup *)

Lemma range_registry_found (valueType : rtype)
    (entries : list (string * rtype)) (k0 : string) (t0 : rtype) :
  (k0, t0) ∈ entries ->
  Type_AssignableTo t0 valueType = true ->
  (forall k t, (k, t) ∈ entries ->
               Type_AssignableTo t valueType = true -> k = k0) ->
  range_registry valueType entries = (slice_of_string k0, true).
Proof.
  intros Hin Ha Huniq.
  induction entries as [|[k t] rest IH]; [by apply elem_of_nil in Hin|].
  cbn [range_registry].
  destruct (Type_AssignableTo t valueType) eqn:Hkt.
  - rewrite (Huniq k t); [done|apply list_elem_of_here|done].
  - apply IH.
    + apply elem_of_cons in Hin as [[= -> ->]|Hin]; [congruence|done].
    + intros k' t' Hin'. apply Huniq. by apply list_elem_of_further.
Qed.

Lemma range_registry_not_found (valueType : rtype)
    (entries : list (string * rtype)) :
  (forall k t, (k, t) ∈ entries ->
               Type_AssignableTo t valueType = false) ->
  range_registry valueType entries = (SBytes [], false).
Proof.
  induction entries as [|[k t] rest IH]; intros Hno; [done|].
  cbn [range_registry].
  rewrite (Hno k t) by apply list_elem_of_here.
  apply IH. intros k' t' Hin'. eapply Hno. by apply list_elem_of_further.
Qed.

Lemma range_registry_false (valueType : rtype)
    (entries : list (string * rtype)) (tag : slice) :
  range_registry valueType entries = (tag, false) -> tag = SBytes [].
Proof.
  induction entries as [|[k t] rest IH]; cbn [range_registry].
  - by intros [= <-].
  - destruct (Type_AssignableTo t valueType); [discriminate|exact IH].
Qed.

Lemma iteration_order_elem (s : state) (order : list (string * rtype))
    (k : string) (t : rtype) :
  iteration_order s order ->
  (k, t) ∈ order <-> payloadTypeRegistry s !! k = Some t.
Proof.
  unfold iteration_order. intros Hp. rewrite Hp.
  apply elem_of_map_to_list.
Qed.

Lemma payloadTypeForRecord_eq (order : list (string * rtype))
    (rec : iface) (valueType : rtype) (s : state) :
  getValueType rec = Ok valueType ->
  payloadTypeForRecord order rec s
  = (Ok (range_registry valueType order), s).
Proof. intros Hv. unfold payloadTypeForRecord. run. by rewrite Hv. Qed.

(** C6. (1) After [RegisterPayloadType(T, &Foo{})], when no entry of the
    registry under another key has a type assignable to [Foo], then
    [payloadTypeForRecord(&Foo{})] returns [true] and a tag with the
    bytes of [T], whatever the order in which the map is visited.
    (2) For an instance such that no registered type is assignable to
    its value type (its dynamic type, with one pointer level removed, as
    [getValueType] computes it), [payloadTypeForRecord] returns
    [false]. *)
Theorem C6_reverse_lookup_consistency :
  (forall (T : slice) (Foo : rtype) (p q : option loc) (s0 : state)
          (order : list (string * rtype)),
     let s := exec (RegisterPayloadType T (Some (VPtr Foo p))) s0 in
     (forall k t, payloadTypeRegistry s !! k = Some t ->
                  k <> string_of_slice T ->
                  Type_AssignableTo t Foo = false) ->
     iteration_order s order ->
     exists tag : slice,
       eval (payloadTypeForRecord order (Some (VPtr Foo q))) s
       = Ok (tag, true) /\
       slice_bytes tag = slice_bytes T) /\
  (forall (rec : iface) (valueType : rtype) (s : state)
          (order : list (string * rtype)),
     getValueType rec = Ok valueType ->
     (forall k t, payloadTypeRegistry s !! k = Some t ->
                  Type_AssignableTo t valueType = false) ->
     iteration_order s order ->
     exists tag : slice,
       eval (payloadTypeForRecord order rec) s = Ok (tag, false)).
Proof.
  split.
  - intros T Foo p q s0 order s Hother Hord.
    exists (slice_of_string (string_of_slice T)).
    split; [|apply slice_of_string_of_slice].
    unfold eval.
    rewrite (payloadTypeForRecord_eq _ _ Foo) by apply getValueType_ptr.
    cbn [fst]. f_equal.
    apply (range_registry_found _ _ _ Foo).
    + apply (iteration_order_elem s); [done|].
      apply (registered_lookup T Foo p s0).
    + apply Type_AssignableTo_refl.
    + intros k t Hin Ha. apply (iteration_order_elem s) in Hin; [|done].
      destruct (decide (k = string_of_slice T)) as [|Hne]; [done|].
      rewrite (Hother k t Hin Hne) in Ha. discriminate.
  - intros rec valueType s order Hv Hno Hord.
    exists (SBytes []). unfold eval.
    rewrite (payloadTypeForRecord_eq _ _ valueType) by done.
    cbn [fst]. f_equal. apply range_registry_not_found.
    intros k t Hin. apply (Hno k).
    by apply (iteration_order_elem s order).
Qed.

(** C9. Whenever [payloadTypeForRecord] returns [found = false], the tag
    returned with it is the empty, non-nil slice [[]byte{}]; and the
    function does return so for every non-nil instance whose value type
    no visited entry is assignable to. *)
Theorem C9_not_found_tag_is_empty_slice :
  (forall (order : list (string * rtype)) (rec : iface) (s : state)
          (tag : slice),
     eval (payloadTypeForRecord order rec) s = Ok (tag, false) ->
     tag = SBytes [] /\ is_nil tag = false /\ len tag = 0) /\
  (forall (order : list (string * rtype)) (rec : iface)
          (valueType : rtype) (s : state),
     getValueType rec = Ok valueType ->
     (forall k t, (k, t) ∈ order ->
                  Type_AssignableTo t valueType = false) ->
     eval (payloadTypeForRecord order rec) s = Ok (SBytes [], false)).
Proof.
  split.
  - intros order rec s tag. unfold eval, payloadTypeForRecord. run.
    destruct (getValueType rec) as [valueType|]; [|discriminate].
    cbn [fst]. intros [= Hr]. apply range_registry_false in Hr.
    by subst tag.
  - intros order rec valueType s Hv Hno. unfold eval.
    rewrite (payloadTypeForRecord_eq _ _ valueType) by done.
    cbn [fst]. f_equal. by apply range_registry_not_found.
Qed.


(** ** Frame *)

Lemma unmarshalRecordPayload_registry (payloadType payloadBytes : slice)
    (s : state) :
  payloadTypeRegistry
    (exec (unmarshalRecordPayload payloadType payloadBytes) s)
  = payloadTypeRegistry s.
Proof.
  unfold unmarshalRecordPayload, exec, mbind, M_bind, bind.
  pose proof (blankRecordForPayloadType_registry payloadType s) as Hb.
  unfold exec in Hb.
  destruct (blankRecordForPayloadType payloadType s) as [[[rec err]|] s1];
    [|done].
  cbn [snd] in Hb. destruct err as [e|]; [done|].
  pose proof (Record_UnmarshalRecord_registry rec payloadBytes s1) as Hu.
  unfold exec in Hu.
  destruct (Record_UnmarshalRecord rec payloadBytes s1) as [[err|] s2];
    cbn [snd] in Hu |- *; [|congruence].
  destruct err; cbn; congruence.
Qed.


(** ** Tag identity *)

(** C8. After [RegisterPayloadType(t1, &Foo{})] for a type [Foo] of the
    program, where [t2] is not registered on its own account (it is
    absent from the registry before the call unless it has the bytes of
    [t1]): [blankRecordForPayloadType(t2)] returns a [*Foo] exactly when
    [t1] and [t2] hold the same bytes, and a [*DefaultRecord]
    otherwise. *)
Theorem C8_tag_identity_is_byte_equality (t1 t2 : slice) (Foo : tyname)
    (p : option loc) (s0 : state) :
  well_typed_Record (Some (VPtr (TUser Foo) p)) = true ->
  (slice_bytes t1 <> slice_bytes t2 ->
   payloadTypeRegistry s0 !! string_of_slice t2 = None) ->
  let s := exec (RegisterPayloadType t1 (Some (VPtr (TUser Foo) p))) s0 in
  exists v : gvalue,
    eval (blankRecordForPayloadType t2) s = Ok (Some v, None) /\
    (dyn_type v = TPtr (TUser Foo) <-> slice_bytes t1 = slice_bytes t2) /\
    (slice_bytes t1 <> slice_bytes t2 -> dyn_type v = TPtr TDefaultRecord).
Proof.
  intros Hwt Hsep s.
  destruct (decide (string_of_slice t1 = string_of_slice t2)) as [Heq|Hne].
  - assert (payloadTypeRegistry s !! string_of_slice t2
            = Some (TUser Foo)) as Hk.
    { rewrite <- Heq. apply (registered_lookup t1 (TUser Foo) p s0). }
    apply string_of_slice_inj in Heq.
    eexists. unfold eval.
    rewrite (blankRecordForPayloadType_registered _ _ s Hk Hwt).
    cbn [fst dyn_type]. done.
  - assert (slice_bytes t1 <> slice_bytes t2) as Hb
      by (by rewrite <- string_of_slice_inj).
    assert (payloadTypeRegistry s !! string_of_slice t2 = None) as Hk.
    { subst s. rewrite RegisterPayloadType_lookup_ne by done. auto. }
    eexists. unfold eval.
    rewrite (blankRecordForPayloadType_unregistered _ s Hk).
    cbn [fst dyn_type]. split; [done|]. split; [|done].
    split; [discriminate|done].
Qed.

(** ** Pointer indirection *)

(** C10. For a type [Foo] of the program whose value [Foo{}] is a
    [Record]: [getValueType] computes [Foo] for both [&Foo{}] and
    [Foo{}]; [RegisterPayloadType(T, &Foo{})] and
    [RegisterPayloadType(T, Foo{})] have the same result and leave the
    same state; after either, [blankRecordForPayloadType(T)] returns a
    nil error and a [*Foo] pointing to a new zero value of [Foo]; and
    [payloadTypeForRecord] behaves the same on [&Foo{}] and [Foo{}]. *)
Theorem C10_one_level_of_pointer_indirection (T : slice) (Foo : tyname)
    (p : option loc) (v : value) (s : state)
    (order : list (string * rtype)) :
  well_typed_Record (Some (VUser Foo v)) = true ->
  let ptr := Some (VPtr (TUser Foo) p) in
  let val := Some (VUser Foo v) in
  let s' := exec (RegisterPayloadType T val) s in
  let l := fresh (dom (heap s')) in
  (getValueType ptr = Ok (TUser Foo) /\
   getValueType val = Ok (TUser Foo)) /\
  RegisterPayloadType T ptr s = RegisterPayloadType T val s /\
  payloadTypeRegistry s' !! string_of_slice T = Some (TUser Foo) /\
  (eval (blankRecordForPayloadType T) s'
   = Ok (Some (VPtr (TUser Foo) (Some l)), None) /\
   heap (exec (blankRecordForPayloadType T) s') !! l
   = Some (zero_value (TUser Foo))) /\
  payloadTypeForRecord order ptr s = payloadTypeForRecord order val s.
Proof.
  intros Hwt ptr val s' l.
  assert (getValueType val = Ok (TUser Foo)) as Hval
    by apply getValueType_user.
  assert (getValueType ptr = Ok (TUser Foo)) as Hptr
    by apply getValueType_ptr.
  assert (implementsRecord (TPtr (TUser Foo)) = true) as Hi
    by (by apply implementsRecord_ptr_of_value).
  assert (payloadTypeRegistry s' !! string_of_slice T = Some (TUser Foo))
    as Hk.
  { subst s'. unfold exec.
    rewrite (RegisterPayloadType_Ok _ _ _ _ Hval). cbn.
    apply lookup_insert_eq. }
  split; [done|]. split.
  { by rewrite (RegisterPayloadType_Ok _ _ _ _ Hval),
      (RegisterPayloadType_Ok _ _ _ _ Hptr). }
  split; [done|]. split.
  - unfold eval, exec.
    rewrite (blankRecordForPayloadType_registered _ _ s' Hk Hi).
    cbn [fst snd]. split; [done|]. cbn. apply lookup_insert_eq.
  - by rewrite (payloadTypeForRecord_eq _ _ _ _ Hval),
      (payloadTypeForRecord_eq _ _ _ _ Hptr).
Qed.

(** ** Further properties of the package *)

(** *** Results of the building blocks *)

(** The three ways [blankRecordForPayloadType] can go. *)
Lemma blankRecordForPayloadType_cases (payloadType : slice) (s : state) :
  let l := fresh (dom (heap s)) in
  (payloadTypeRegistry s !! string_of_slice payloadType = None /\
   blankRecordForPayloadType payloadType s
   = (Ok (Some (VPtr TDefaultRecord (Some l)), None),
      set_heap <[l := VDefaultRecord {| Contents := SNil |}]> s)) \/
  (exists t,
     payloadTypeRegistry s !! string_of_slice payloadType = Some t /\
     implementsRecord (TPtr t) = true /\
     blankRecordForPayloadType payloadType s
     = (Ok (Some (VPtr t (Some l)), None),
        set_heap <[l := zero_value t]> s)) \/
  (exists t,
     payloadTypeRegistry s !! string_of_slice payloadType = Some t /\
     implementsRecord (TPtr t) = false /\
     blankRecordForPayloadType payloadType s
     = (Panic, set_heap <[l := zero_value t]> s)).
Proof.
  intros l.
  destruct (payloadTypeRegistry s !! string_of_slice payloadType)
    as [t|] eqn:Hk.
  - right. destruct (implementsRecord (TPtr t)) eqn:Hi.
    + left. exists t. split; [done|]. split; [done|].
      by apply blankRecordForPayloadType_registered.
    + right. exists t. split; [done|]. split; [done|].
      unfold blankRecordForPayloadType, New_Interface, assert_Record. run.
      rewrite Hk. cbn [dyn_type]. by rewrite Hi.
  - left. split; [done|]. by apply blankRecordForPayloadType_unregistered.
Qed.


Lemma Record_MarshalRecord_DefaultRecord (l : loc) (r : DefaultRecord)
    (s : state) :
  heap s !! l = Some (VDefaultRecord r) ->
  Record_MarshalRecord (Some (VPtr TDefaultRecord (Some l))) s
  = (Ok (Contents r, None), s).
Proof. intros Hl. unfold Record_MarshalRecord. run. by rewrite Hl. Qed.

Lemma range_registry_true (valueType : rtype)
    (entries : list (string * rtype)) (tag : slice) :
  range_registry valueType entries = (tag, true) ->
  exists k t, (k, t) ∈ entries /\
              Type_AssignableTo t valueType = true /\
              tag = slice_of_string k.
Proof.
  induction entries as [|[k t] rest IH]; cbn [range_registry].
  - discriminate.
  - destruct (Type_AssignableTo t valueType) eqn:Ha.
    + intros [= <-]. exists k, t. split; [apply list_elem_of_here|done].
    + intros Hr. destruct (IH Hr) as (k' & t' & Hin & Ha' & ->).
      exists k', t'. split; [by apply list_elem_of_further|done].
Qed.

Lemma range_registry_false_all (valueType : rtype)
    (entries : list (string * rtype)) (tag : slice) :
  range_registry valueType entries = (tag, false) ->
  forall k t, (k, t) ∈ entries -> Type_AssignableTo t valueType = false.
Proof.
  induction entries as [|[k' t'] rest IH]; cbn [range_registry];
    intros Hr k t Hin; [by apply elem_of_nil in Hin|].
  destruct (Type_AssignableTo t' valueType) eqn:Ha; [discriminate|].
  apply elem_of_cons in Hin as [[= -> ->]|Hin]; [done|by eapply IH].
Qed.

Lemma string_of_slice_of_string (k : string) :
  string_of_slice (slice_of_string k) = k.
Proof. apply string_of_list_byte_of_string. Qed.

(** *** The fallback payload *)

(** X1. [UnmarshalRecord(b)] on a valid [*DefaultRecord] replaces the
    contents, whatever they were, by a non-nil slice with the bytes of [b]
    (the empty non-nil slice for a nil or empty [b]); it changes no other
    object and not the registry. *)
Theorem X1_UnmarshalRecord_overwrites_receiver_only (b : slice)
    (r0 : DefaultRecord) (l : loc) (s : state) :
  heap s !! l = Some (VDefaultRecord r0) ->
  let s1 := exec (Record_UnmarshalRecord
                    (Some (VPtr TDefaultRecord (Some l))) b) s in
  (exists c : slice,
     heap s1 !! l = Some (VDefaultRecord {| Contents := c |}) /\
     is_nil c = false /\ slice_bytes c = slice_bytes b) /\
  (forall l', l' <> l -> heap s1 !! l' = heap s !! l') /\
  payloadTypeRegistry s1 = payloadTypeRegistry s.
Proof.
  intros Hl s1. subst s1. unfold exec.
  rewrite (Record_UnmarshalRecord_DefaultRecord _ _ _ _ Hl). cbn.
  split; [|split; [|done]].
  - exists (SBytes (slice_bytes b)). by rewrite lookup_insert_eq.
  - intros l' Hne. by rewrite lookup_insert_ne.
Qed.

(** X2. Decoding under a tag that is absent from the registry and then
    marshalling the record that was returned gives back the payload:
    [MarshalRecord] returns a nil error and a non-nil slice with the bytes
    of [b], and leaves the state as it is. *)
Theorem X2_decode_unregistered_then_marshal (tag b : slice) (s : state) :
  payloadTypeRegistry s !! string_of_slice tag = None ->
  exists (rec : iface) (out : slice),
    eval (unmarshalRecordPayload tag b) s = Ok (rec, None) /\
    Record_MarshalRecord rec (exec (unmarshalRecordPayload tag b) s)
    = (Ok (out, None), exec (unmarshalRecordPayload tag b) s) /\
    slice_bytes out = slice_bytes b /\
    is_nil out = false.
Proof.
  intros Hk. unfold eval, exec.
  rewrite (unmarshalRecordPayload_unregistered _ _ _ Hk). cbn [fst snd].
  eexists _, (SBytes (slice_bytes b)). split; [done|].
  split; [|done].
  rewrite (Record_MarshalRecord_DefaultRecord _
             {| Contents := SBytes (slice_bytes b) |}); [done|].
  cbn. apply lookup_insert_eq.
Qed.

(** X16. A tag registered with [&DefaultRecord{}] decodes exactly as an
    unregistered tag does: the reflective path builds the same blank
    record at the same address as the fallback path, and
    [unmarshalRecordPayload] has the same result and final state. *)
Theorem X16_registered_DefaultRecord_decodes_as_fallback
    (T b : slice) (s : state) :
  payloadTypeRegistry s !! string_of_slice T = Some TDefaultRecord ->
  let l := fresh (dom (heap s)) in
  blankRecordForPayloadType T s
  = (Ok (Some (VPtr TDefaultRecord (Some l)), None),
     set_heap <[l := VDefaultRecord {| Contents := SNil |}]> s) /\
  unmarshalRecordPayload T b s
  = (Ok (Some (VPtr TDefaultRecord (Some l)), None),
     set_heap <[l := VDefaultRecord
                       {| Contents := SBytes (slice_bytes b) |}]>
       (set_heap <[l := VDefaultRecord {| Contents := SNil |}]> s)).
Proof.
  intros Hk l.
  assert (blankRecordForPayloadType T s
          = (Ok (Some (VPtr TDefaultRecord (Some l)), None),
             set_heap <[l := VDefaultRecord {| Contents := SNil |}]> s))
    as Hb by (by apply blankRecordForPayloadType_registered).
  split; [done|].
  unfold unmarshalRecordPayload.
  erewrite mbind_Ok by exact Hb.
  cbv beta iota. erewrite mbind_Ok.
  2: { eapply Record_UnmarshalRecord_DefaultRecord.
       cbn. apply lookup_insert_eq. }
  done.
Qed.

(** *** Registration *)

(** X3. [RegisterPayloadType] panics on the nil prototype, leaving the
    state untouched; on every other prototype it returns, leaves the heap
    as it is (the prototype is not retained) and stores under
    [string(payloadType)] the prototype's dynamic type, with one pointer
    level removed when that type is a pointer type. *)
Theorem X3_RegisterPayloadType_nil_and_non_nil (payloadType : slice)
    (s : state) :
  RegisterPayloadType payloadType None s = (Panic, s) /\
  forall v : gvalue,
    exists t : rtype,
      RegisterPayloadType payloadType (Some v) s
      = (Ok tt, set_registry <[string_of_slice payloadType := t]> s) /\
      heap (exec (RegisterPayloadType payloadType (Some v)) s) = heap s /\
      (dyn_type v = TPtr t \/
       (dyn_type v = t /\ forall elem, t <> TPtr elem)).
Proof.
  split; [done|]. intros v.
  destruct (getValueType_Some v) as [t Ht]. exists t.
  split; [by apply RegisterPayloadType_Ok|].
  split; [apply RegisterPayloadType_heap|].
  destruct v as [r|n u|e p].
  - right. rewrite getValueType_DefaultRecord in Ht.
    injection Ht as <-. by split.
  - right. rewrite getValueType_user in Ht. injection Ht as <-. by split.
  - left. rewrite getValueType_ptr in Ht. by injection Ht as <-.
Qed.

(** X4. Registrations under tags with different bytes commute, and
    repeating a registration changes nothing: the state after the calls
    does not depend on their order or on repetitions. *)
Theorem X4_registrations_commute (t1 t2 : slice) (p1 p2 : iface)
    (s : state) :
  (slice_bytes t1 <> slice_bytes t2 ->
   exec (RegisterPayloadType t2 p2) (exec (RegisterPayloadType t1 p1) s)
   = exec (RegisterPayloadType t1 p1)
       (exec (RegisterPayloadType t2 p2) s)) /\
  exec (RegisterPayloadType t1 p1) (exec (RegisterPayloadType t1 p1) s)
  = exec (RegisterPayloadType t1 p1) s.
Proof.
  split.
  - intros Hne.
    assert (string_of_slice t2 <> string_of_slice t1) as Hk.
    { intros Heq%string_of_slice_inj. by apply Hne. }
    unfold RegisterPayloadType. run.
    destruct (getValueType p1) as [u1|], (getValueType p2) as [u2|];
      cbn; try done.
    unfold set_registry. cbn. f_equal. by apply insert_insert_ne.
  - unfold RegisterPayloadType. run.
    destruct (getValueType p1) as [u1|]; cbn; [|done].
    unfold set_registry. cbn. f_equal. apply insert_insert_eq.
Qed.

(** X5. Along every history the registry only grows or is overwritten:
    a key that is present stays present, and a key or a type that was not
    there before comes from a registration under that key. *)
Theorem X5_entries_are_never_removed (s s' : state)
    (tags : list (list byte)) :
  steps s tags s' ->
  (forall k, is_Some (payloadTypeRegistry s !! k) ->
             is_Some (payloadTypeRegistry s' !! k)) /\
  (forall k t, payloadTypeRegistry s' !! k = Some t ->
               payloadTypeRegistry s !! k = Some t \/
               list_byte_of_string k ∈ tags).
Proof.
  induction 1 as [s|s tags s' pt proto Hs [IH1 IH2]|s tags s' f Hs IH].
  - split; [done|]. intros k t Hk. by left.
  - split.
    + intros k Hk. specialize (IH1 k Hk).
      unfold RegisterPayloadType. run.
      destruct (getValueType proto) as [u|]; [|done].
      cbn. apply lookup_insert_is_Some.
      destruct (decide (string_of_slice pt = k)); [by left|by right].
    + intros k t. unfold RegisterPayloadType. run.
      destruct (getValueType proto) as [u|]; cbn.
      * rewrite lookup_insert_Some. intros [[<- <-]|[Hne Hk]].
        -- right. unfold string_of_slice.
           rewrite list_byte_of_string_of_list_byte. apply list_elem_of_here.
        -- destruct (IH2 k t Hk) as [|Hin]; [by left|right].
           by apply list_elem_of_further.
      * intros Hk. destruct (IH2 k t Hk) as [|Hin]; [by left|right].
        by apply list_elem_of_further.
  - done.
Qed.

(** X6. [registry_ok] is an invariant of every program that registers
    prototypes of static type [Record] only: it holds of the empty
    registry, [RegisterPayloadType] with a well-typed prototype keeps it
    (also when the call panics on nil), and so do heap changes and the
    three dispatch functions. *)
Theorem X6_registry_ok_invariant :
  (forall h, registry_ok (init_state h)) /\
  (forall s payloadType prototype,
     registry_ok s ->
     well_typed_Record prototype = true ->
     registry_ok (exec (RegisterPayloadType payloadType prototype) s)) /\
  (forall s f, registry_ok s -> registry_ok (set_heap f s)) /\
  (forall s payloadType payloadBytes rec order,
     registry_ok s ->
     registry_ok (exec (blankRecordForPayloadType payloadType) s) /\
     registry_ok (exec (unmarshalRecordPayload payloadType payloadBytes) s)
     /\ registry_ok (exec (payloadTypeForRecord order rec) s)).
Proof.
  split; [|split; [|split]].
  - intros h k t Hk. cbn in Hk. by rewrite lookup_empty in Hk.
  - intros s pt proto Hok Hwt k t.
    destruct proto as [v|]; [|by apply Hok].
    destruct (getValueType_Some v) as [u Hu].
    unfold exec. rewrite (RegisterPayloadType_Ok _ _ _ _ Hu). cbn.
    rewrite lookup_insert_Some. intros [[_ <-]|[_ Hk]].
    + by apply (well_typed_value_type v).
    + by apply (Hok k).
  - intros s f Hok k t Hk. by apply (Hok k).
  - intros s pt pb rec order Hok. unfold registry_ok.
    rewrite blankRecordForPayloadType_registry,
      unmarshalRecordPayload_registry.
    split; [done|]. split; [done|].
    unfold payloadTypeForRecord. run. by destruct (getValueType rec).
Qed.

(** X7. Under [registry_ok], [blankRecordForPayloadType] never panics
    and never fails: for every tag it returns a nil error and a non-nil
    pointer to an address that was free, where it stores the zero value of
    the registered type, or of [DefaultRecord] when the tag is absent. *)
Theorem X7_blankRecordForPayloadType_total (payloadType : slice)
    (s : state) :
  registry_ok s ->
  let l := fresh (dom (heap s)) in
  let t := default TDefaultRecord
             (payloadTypeRegistry s !! string_of_slice payloadType) in
  blankRecordForPayloadType payloadType s
  = (Ok (Some (VPtr t (Some l)), None), set_heap <[l := zero_value t]> s)
  /\ heap s !! l = None.
Proof.
  intros Hok l t. split; [|apply fresh_heap_None]. subst t.
  destruct (payloadTypeRegistry s !! string_of_slice payloadType)
    as [u|] eqn:Hk; cbn [default].
  - apply blankRecordForPayloadType_registered; [done|by apply (Hok _ _ Hk)].
  - by apply blankRecordForPayloadType_unregistered.
Qed.

(** *** Decoding *)

(** X8. Whenever [unmarshalRecordPayload] returns, exactly one of the
    record and the error is nil: either the error is nil and the record is
    a non-nil pointer to an address that was free before the call, or the
    record is nil and the error is not. *)
Theorem X8_unmarshalRecordPayload_record_xor_error
    (payloadType payloadBytes : slice) (s : state) (rec : iface)
    (err : error) :
  eval (unmarshalRecordPayload payloadType payloadBytes) s = Ok (rec, err) ->
  (err = None /\
   exists t, rec = Some (VPtr t (Some (fresh (dom (heap s))))) /\
             heap s !! fresh (dom (heap s)) = None) \/
  (rec = None /\ err <> None).
Proof.
  unfold eval, unmarshalRecordPayload.
  destruct (blankRecordForPayloadType_cases payloadType s)
    as [[_ Hb]|[(t & _ & _ & Hb)|(t & _ & _ & Hb)]];
    unfold mbind, M_bind, bind at 1; rewrite Hb; [| |discriminate];
    cbv beta iota; unfold bind;
    (destruct (Record_UnmarshalRecord _ payloadBytes _) as [[[e|]|] s2];
     cbn; intros [= <- <-]; [by right|left]);
    (split; [done|]); eexists; (split; [done|apply fresh_heap_None]).
Qed.


(** X10. For a tag registered with a type [n] of the program whose
    [UnmarshalRecord] accepts [x] on a blank instance and leaves the value
    [v'], [unmarshalRecordPayload] returns a nil error and a [*n] at a new
    address; the object there is [v'] when the method has a pointer
    receiver, and still the zero value when it has a value receiver (the
    method then worked on a copy). *)
Theorem X10_decode_registered_success (T x : slice) (n : tyname)
    (m : Methods) (v' : value) (s : state) :
  payloadTypeRegistry s !! string_of_slice T = Some (TUser n) ->
  decl_methods (decls n) = Some m ->
  UnmarshalRecord_impl m x (decl_zero (decls n)) = Some (v', None) ->
  let l := fresh (dom (heap s)) in
  eval (unmarshalRecordPayload T x) s
  = Ok (Some (VPtr (TUser n) (Some l)), None) /\
  heap (exec (unmarshalRecordPayload T x) s) !! l
  = Some (VUser n match unmarshal_recv m with
                  | ByPointer => v'
                  | ByValue => decl_zero (decls n)
                  end).
Proof.
  intros Hk Hm Hu l.
  assert (implementsRecord (TPtr (TUser n)) = true) as Hi.
  { unfold implementsRecord, declared_receivers. by rewrite Hm. }
  unfold unmarshalRecordPayload, eval, exec.
  erewrite mbind_Ok
    by exact (blankRecordForPayloadType_registered _ _ _ Hk Hi).
  cbv beta iota. unfold mbind, M_bind, bind.
  erewrite Record_UnmarshalRecord_user;
    [|exact Hm|cbn; apply lookup_insert_eq].
  rewrite Hu. cbn. split; [done|].
  destruct (unmarshal_recv m); cbn; apply lookup_insert_eq.
Qed.

(** *** Reverse lookup *)

(** A tag returned with [true] is a key of the value type. *)
Lemma payloadTypeForRecord_found (s : state)
    (order : list (string * rtype)) (rec : iface) (valueType : rtype)
    (tag : slice) :
  iteration_order s order ->
  getValueType rec = Ok valueType ->
  eval (payloadTypeForRecord order rec) s = Ok (tag, true) ->
  payloadTypeRegistry s !! string_of_slice tag = Some valueType.
Proof.
  intros Hord Hv. unfold eval.
  rewrite (payloadTypeForRecord_eq _ _ _ _ Hv). cbn [fst]. intros [= Hr].
  destruct (range_registry_true _ _ _ Hr) as (k & t & Hin & Ha & ->).
  apply Type_AssignableTo_eq in Ha as ->.
  rewrite string_of_slice_of_string.
  by apply (iteration_order_elem s order).
Qed.

(** A key of the value type makes the lookup succeed. *)
Lemma payloadTypeForRecord_complete (s : state)
    (order : list (string * rtype)) (rec : iface) (valueType : rtype)
    (k : string) :
  iteration_order s order ->
  getValueType rec = Ok valueType ->
  payloadTypeRegistry s !! k = Some valueType ->
  exists tag : slice,
    payloadTypeForRecord order rec s = (Ok (tag, true), s).
Proof.
  intros Hord Hv Hk. rewrite (payloadTypeForRecord_eq _ _ _ _ Hv).
  destruct (range_registry valueType order) as [tag [|]] eqn:Hr;
    [by exists tag|].
  apply (iteration_order_elem s order) in Hk; [|done].
  pose proof (range_registry_false_all _ _ _ Hr k valueType Hk) as Ha.
  by rewrite Type_AssignableTo_refl in Ha.
Qed.

(** X11. For a non-nil instance and every iteration order,
    [payloadTypeForRecord] returns a non-nil tag, reports [true] exactly
    when some key of the registry maps to the value type of the instance
    (on the types of the model, assignable means identical), and the tag
    it then returns is such a key. *)
Theorem X11_payloadTypeForRecord_sound_and_complete (s : state)
    (order : list (string * rtype)) (rec : iface) (valueType : rtype) :
  iteration_order s order ->
  getValueType rec = Ok valueType ->
  exists (tag : slice) (found : bool),
    payloadTypeForRecord order rec s = (Ok (tag, found), s) /\
    is_nil tag = false /\
    (found = true <->
     exists k, payloadTypeRegistry s !! k = Some valueType) /\
    (found = true ->
     payloadTypeRegistry s !! string_of_slice tag = Some valueType).
Proof.
  intros Hord Hv.
  pose proof (payloadTypeForRecord_eq order rec valueType s Hv) as Hp.
  destruct (range_registry valueType order) as [tag found] eqn:Hr.
  exists tag, found. split; [done|].
  assert (found = true ->
          payloadTypeRegistry s !! string_of_slice tag = Some valueType)
    as Hsound.
  { intros ->. apply (payloadTypeForRecord_found s order rec); [done..|].
    unfold eval. by rewrite Hp. }
  split; [|split; [split|done]].
  - destruct found.
    + by destruct (range_registry_true _ _ _ Hr) as (k & t & _ & _ & ->).
    + by rewrite (range_registry_false _ _ _ Hr).
  - intros Hf. eexists. by apply Hsound.
  - intros [k Hk].
    destruct (payloadTypeForRecord_complete s order rec valueType k
                Hord Hv Hk) as [tag' Hp'].
    rewrite Hp in Hp'. by injection Hp' as _ ->.
Qed.




(** X14. Which of several matching tags [payloadTypeForRecord] returns
    is up to the iteration order of the map: for every key registered for
    the value type of the instance there is an iteration order under
    which that key is the one returned. *)
Theorem X14_any_matching_tag_may_be_returned (s : state) (rec : iface)
    (valueType : rtype) (k : string) :
  getValueType rec = Ok valueType ->
  payloadTypeRegistry s !! k = Some valueType ->
  exists order : list (string * rtype),
    iteration_order s order /\
    payloadTypeForRecord order rec s = (Ok (slice_of_string k, true), s).
Proof.
  intros Hv Hk.
  apply elem_of_map_to_list, elem_of_Permutation in Hk as [rest Hperm].
  exists ((k, valueType) :: rest).
  split; [unfold iteration_order; by symmetry|].
  rewrite (payloadTypeForRecord_eq _ _ _ _ Hv). cbn [range_registry].
  by rewrite Type_AssignableTo_refl.
Qed.

(** X15. [payloadTypeForRecord] panics exactly on the nil instance,
    whatever the registry holds. *)
Theorem X15_payloadTypeForRecord_panics_on_nil_only
    (order : list (string * rtype)) (rec : iface) (s : state) :
  eval (payloadTypeForRecord order rec) s = Panic <-> rec = None.
Proof.
  split.
  - destruct rec as [v|]; [|done].
    destruct (getValueType_Some v) as [t Ht].
    unfold eval. by rewrite (payloadTypeForRecord_eq _ _ _ _ Ht).
  - by intros ->.
Qed.

End Program.

Arguments TDefaultRecord {tyname}.
Arguments TUser {tyname} n.
Arguments TPtr {tyname} elem.
Arguments VDefaultRecord {tyname value} r.
Arguments VUser {tyname value} n v.
Arguments VPtr {tyname value} elem p.
Arguments payloadTypeRegistry {tyname value} s.
Arguments heap {tyname value} s.
Arguments init_state {tyname value} h.
Arguments set_heap {tyname value} f s.
Arguments set_registry {tyname value} f s.
Arguments exec {tyname value A} m s.
Arguments eval {tyname value A} m s.
Arguments dyn_type {tyname value} v.
Arguments zero_value {tyname value E} decls t.
Arguments implementsRecord {tyname value E} decls t.
Arguments well_typed_Record {tyname value E} decls rec.
Arguments getValueType {tyname value E} decls i.
Arguments Type_AssignableTo {tyname _ value E} decls t u.
Arguments Record_UnmarshalRecord {tyname value E} decls rec data.
Arguments Record_MarshalRecord {tyname value E} decls rec.
Arguments RegisterPayloadType {tyname value E} decls payloadType prototype.
Arguments blankRecordForPayloadType {tyname value E} decls payloadType.
Arguments unmarshalRecordPayload {tyname value E} decls
  payloadType payloadBytes.
Arguments payloadTypeForRecord {tyname _ value E} decls order rec.
Arguments iteration_order {tyname value} s order.
Arguments steps {tyname value E} decls s tags s'.
Arguments steps_refl {tyname value E} decls s.
Arguments steps_register {tyname value E} decls s tags s'
  payloadType prototype _.
Arguments steps_heap {tyname value E} decls s tags s' f _.
Arguments reachable {tyname value E} decls tags s.
Arguments registry_ok {tyname value E} decls s.

(** ** A program with three payload types

    [Foo] declares both methods on [*Foo] and rejects the empty payload;
    [Bar] marshals by value and unmarshals through a pointer; [Baz]
    declares both methods on the value.  Each keeps the bytes it was
    given. *)

Module Example.

Inductive tyname : Set := Foo | Bar | Baz.

#[global] Instance tyname_eq_dec : EqDecision tyname.
Proof. solve_decision. Defined.

Definition value : Type := list byte.
Definition E : Type := string.

Definition keep_bytes (data : slice) (v : value)
    : option (value * error E) :=
  Some (slice_bytes data, None).

Definition reject_empty (data : slice) (v : value)
    : option (value * error E) :=
  match slice_bytes data with
  | [] => Some (v, Some "foo: empty payload"%string)
  | l => Some (l, None)
  end.

Definition emit_bytes (v : value)
    : option (value * (slice * error E)) :=
  Some (v, (SBytes v, None)).

Definition methods (n : tyname) : Methods value E :=
  match n with
  | Foo => {| marshal_recv := ByPointer; MarshalRecord_impl := emit_bytes;
              unmarshal_recv := ByPointer;
              UnmarshalRecord_impl := reject_empty |}
  | Bar => {| marshal_recv := ByValue; MarshalRecord_impl := emit_bytes;
              unmarshal_recv := ByPointer;
              UnmarshalRecord_impl := keep_bytes |}
  | Baz => {| marshal_recv := ByValue; MarshalRecord_impl := emit_bytes;
              unmarshal_recv := ByValue;
              UnmarshalRecord_impl := keep_bytes |}
  end.

Definition decls (n : tyname) : TypeDecl value E :=
  {| decl_kind := reflect.Struct;
     decl_kind_recv := eq_refl;
     decl_zero := [];
     decl_methods := Some (methods n) |}.

Definition tag_foo : slice :=
  SBytes [Byte.x2f; Byte.x66; Byte.x6f; Byte.x6f].
Definition tag_bar : slice :=
  SBytes [Byte.x2f; Byte.x62; Byte.x61; Byte.x72].
Definition payload : slice := SBytes [Byte.x68; Byte.x69].

(** [&Foo{}], [&Bar{}], [&Baz{}] and [Baz{}] as prototypes. *)
Definition ptr_to (n : tyname) : iface tyname value :=
  Some (VPtr (TUser n) None).
Definition baz_value : iface tyname value := Some (VUser Baz []).

(** A [DefaultRecord] that already holds one byte. *)
Definition r_used : DefaultRecord := {| Contents := SBytes [Byte.x01] |}.

(** The state at start-up, with [r_used] allocated at address 1. *)
Definition s_init : state tyname value :=
  init_state {[ 1%positive := VDefaultRecord r_used ]}.

(** The state after [RegisterPayloadType(tag_foo, &Foo{})]. *)
Definition s_foo : state tyname value :=
  exec (RegisterPayloadType decls tag_foo (ptr_to Foo)) s_init.

(** Sanity checks of the model on this program. *)


Example decode_foo_stored :
  heap (exec (unmarshalRecordPayload decls tag_foo payload) s_foo)
    !! 2%positive
  = Some (VUser Foo [Byte.x68; Byte.x69]).
Proof. vm_compute. reflexivity. Qed.

Example decode_unknown :
  eval (unmarshalRecordPayload decls tag_bar payload) s_foo
  = Ok (Some (VPtr TDefaultRecord (Some 2%positive)), None).
Proof. vm_compute. reflexivity. Qed.

Example decode_foo_empty :
  eval (unmarshalRecordPayload decls tag_foo SNil) s_foo
  = Ok (None, Some "foo: empty payload"%string).
Proof. vm_compute. reflexivity. Qed.

Example register_nil_panics :
  RegisterPayloadType decls tag_foo None s_init = (Panic, s_init).
Proof. reflexivity. Qed.

Example find_foo :
  eval (payloadTypeForRecord decls
          (map_to_list (payloadTypeRegistry s_foo)) (ptr_to Foo)) s_foo
  = Ok (SBytes (slice_bytes tag_foo), true).
Proof. vm_compute. reflexivity. Qed.

Example find_bar :
  eval (payloadTypeForRecord decls
          (map_to_list (payloadTypeRegistry s_foo)) (ptr_to Bar)) s_foo
  = Ok (SBytes [], false).
Proof. vm_compute. reflexivity. Qed.


(** *** The theorems at this program *)

Lemma C1_witness :
  heap s_init !! 1%positive = Some (VDefaultRecord r_used) /\
  exists out : slice,
    eval (Record_MarshalRecord decls
            (Some (VPtr TDefaultRecord (Some 1%positive))))
         (exec (Record_UnmarshalRecord decls
                  (Some (VPtr TDefaultRecord (Some 1%positive))) payload)
               s_init)
    = Ok (out, None) /\
    slice_bytes out = slice_bytes payload.
Proof.
  split; [reflexivity|].
  exact (proj2 (C1_DefaultRecord_roundtrip tyname value E decls payload
                  r_used 1%positive s_init eq_refl)).
Defined.

Lemma s_foo_reachable : reachable decls [slice_bytes tag_foo] s_foo.
Proof.
  eexists. exact (steps_register decls _ [] _ tag_foo (ptr_to Foo)
                     (steps_refl decls _)).
Qed.

Lemma tag_bar_unregistered : slice_bytes tag_bar ∉ [slice_bytes tag_foo].
Proof.
  intros Hin. apply list_elem_of_singleton in Hin. discriminate.
Qed.

Lemma C2_witness :
  reachable decls [slice_bytes tag_foo] s_foo /\
  (slice_bytes tag_bar ∉ [slice_bytes tag_foo]) /\
  exists (l : loc) (r : DefaultRecord),
    eval (unmarshalRecordPayload decls tag_bar payload) s_foo
    = Ok (Some (VPtr TDefaultRecord (Some l)), None) /\
    heap (exec (unmarshalRecordPayload decls tag_bar payload) s_foo) !! l
    = Some (VDefaultRecord r) /\
    slice_bytes (Contents r) = slice_bytes payload.
Proof.
  split; [exact s_foo_reachable|]. split; [exact tag_bar_unregistered|].
  exact (C2_unregistered_tag_decodes_to_DefaultRecord tyname value E decls
           [slice_bytes tag_foo] s_foo tag_bar payload
           s_foo_reachable tag_bar_unregistered).
Defined.

(** The state after a first blank record for [tag_foo] was handed out
    and its owner has written to it. *)
Definition s_used : state tyname value :=
  set_heap <[2%positive := VUser Foo [Byte.x07]]>
    (exec (blankRecordForPayloadType decls tag_foo) s_foo).

Lemma C3_witness :
  well_typed_Record decls (ptr_to Foo) = true /\
  heap s_used !! 2%positive = Some (VUser Foo [Byte.x07]) /\
  eval (blankRecordForPayloadType decls tag_foo) s_foo
  = Ok (Some (VPtr (TUser Foo) (Some (fresh (dom (heap s_foo))))), None) /\
  eval (blankRecordForPayloadType decls tag_foo) s_used
  = Ok (Some (VPtr (TUser Foo) (Some (fresh (dom (heap s_used))))), None) /\
  fresh (dom (heap s_used)) <> fresh (dom (heap s_foo)).
Proof.
  split; [reflexivity|]. split; [vm_compute; reflexivity|].
  pose proof (C3_registered_tag_resolves_to_fresh_zero_instance
                tyname value E decls tag_foo Foo None s_init s_foo s_used
                [] [] (VUser Foo [Byte.x07]) eq_refl
                (steps_refl decls _) (not_elem_of_nil _)
                (steps_heap decls _ _ _ _ (steps_refl decls _))
                (not_elem_of_nil _)) as Hc.
  cbv zeta in Hc.
  destruct Hc as [(H1 & _) (H2 & Hne & _)]; [vm_compute; reflexivity|].
  split; [exact H1|]. split; [exact H2|exact Hne].
Defined.

Lemma C4_witness :
  payloadTypeRegistry s_foo !! string_of_slice tag_foo = Some (TUser Foo) /\
  eval (unmarshalRecordPayload decls tag_foo SNil) s_foo
  = Ok (None, Some "foo: empty payload"%string).
Proof.
  split; [vm_compute; reflexivity|].
  apply (C4_decode_failure_propagates tyname value E decls tag_foo SNil
           Foo (methods Foo) []);
    [vm_compute; reflexivity|reflexivity|reflexivity].
Defined.

Lemma C5_witness :
  well_typed_Record decls (ptr_to Bar) = true /\
  payloadTypeRegistry
    (exec (RegisterPayloadType decls tag_foo (ptr_to Bar)) s_foo)
    !! string_of_slice tag_foo
  = Some (TUser Bar).
Proof.
  split; [reflexivity|].
  exact (proj1 (C5_reregistration_overwrites tyname value E decls tag_foo
                  (TUser Foo) (TUser Bar) None None s_init _ [] eq_refl
                  (steps_refl decls _) (not_elem_of_nil _))).
Defined.

Lemma s_foo_order :
  iteration_order s_foo [(string_of_slice tag_foo, TUser Foo)].
Proof.
  unfold iteration_order.
  replace (payloadTypeRegistry s_foo)
    with ({[ string_of_slice tag_foo := TUser Foo ]}
          : gmap string (rtype tyname)).
  - by rewrite map_to_list_singleton.
  - unfold s_foo, exec, RegisterPayloadType, s_init. cbn.
    by rewrite insert_empty.
Qed.

Lemma s_foo_lookup (k : string) (t : rtype tyname) :
  payloadTypeRegistry s_foo !! k = Some t ->
  k = string_of_slice tag_foo /\ t = TUser Foo.
Proof.
  intros Hk.
  apply (iteration_order_elem _ _ s_foo _ k t s_foo_order) in Hk.
  apply list_elem_of_singleton in Hk. by inversion Hk.
Qed.

Lemma C6_witness :
  (exists tag : slice,
     eval (payloadTypeForRecord decls
             [(string_of_slice tag_foo, TUser Foo)] (ptr_to Foo)) s_foo
     = Ok (tag, true) /\
     slice_bytes tag = slice_bytes tag_foo) /\
  (exists tag : slice,
     eval (payloadTypeForRecord decls
             [(string_of_slice tag_foo, TUser Foo)] (ptr_to Bar)) s_foo
     = Ok (tag, false)).
Proof.
  split.
  - apply (proj1 (C6_reverse_lookup_consistency tyname value E decls)
             tag_foo (TUser Foo) None None s_init).
    + intros k t Hk Hne. by destruct (s_foo_lookup k t Hk).
    + exact s_foo_order.
  - apply (proj2 (C6_reverse_lookup_consistency tyname value E decls)
             (ptr_to Bar) (TUser Bar) s_foo).
    + reflexivity.
    + intros k t Hk. by destruct (s_foo_lookup k t Hk) as [_ ->].
    + exact s_foo_order.
Defined.

Lemma C8_witness :
  well_typed_Record decls (ptr_to Foo) = true /\
  (slice_bytes tag_foo <> slice_bytes tag_bar ->
   payloadTypeRegistry s_init !! string_of_slice tag_bar = None) /\
  exists v : gvalue tyname value,
    eval (blankRecordForPayloadType decls tag_bar) s_foo
    = Ok (Some v, None) /\
    (dyn_type v = TPtr (TUser Foo)
     <-> slice_bytes tag_foo = slice_bytes tag_bar) /\
    (slice_bytes tag_foo <> slice_bytes tag_bar ->
     dyn_type v = TPtr TDefaultRecord).
Proof.
  split; [reflexivity|]. split; [intros _; reflexivity|].
  apply (C8_tag_identity_is_byte_equality tyname value E decls tag_foo
           tag_bar Foo None s_init);
    [reflexivity|intros _; reflexivity].
Defined.

Lemma C9_witness :
  eval (payloadTypeForRecord decls
          [(string_of_slice tag_foo, TUser Foo)] (ptr_to Bar)) s_foo
  = Ok (SBytes [], false) /\
  is_nil (SBytes []) = false.
Proof.
  assert (eval (payloadTypeForRecord decls
                  [(string_of_slice tag_foo, TUser Foo)] (ptr_to Bar))
               s_foo
          = Ok (SBytes [], false)) as Hf by reflexivity.
  split; [exact Hf|].
  exact (proj1 (proj2 (proj1 (C9_not_found_tag_is_empty_slice
                                tyname value E decls) _ _ _ _ Hf))).
Defined.

Lemma C10_witness :
  well_typed_Record decls baz_value = true /\
  RegisterPayloadType decls tag_bar (ptr_to Baz) s_foo
  = RegisterPayloadType decls tag_bar baz_value s_foo /\
  payloadTypeForRecord decls [(string_of_slice tag_foo, TUser Foo)]
    (ptr_to Baz) s_foo
  = payloadTypeForRecord decls [(string_of_slice tag_foo, TUser Foo)]
      baz_value s_foo.
Proof.
  split; [reflexivity|].
  pose proof (C10_one_level_of_pointer_indirection tyname value E decls
                tag_bar Baz None [] s_foo
                [(string_of_slice tag_foo, TUser Foo)] eq_refl) as Hc.
  cbv zeta in Hc. destruct Hc as (_ & Hreg & _ & _ & Hfind).
  split; [exact Hreg|exact Hfind].
Defined.


(** *** The further properties at this program *)

Definition default_ptr : iface tyname value :=
  Some (VPtr TDefaultRecord (Some 1%positive)).

(** The state after [RegisterPayloadType(tag_bar, &DefaultRecord{})]. *)
Definition s_def : state tyname value :=
  exec (RegisterPayloadType decls tag_bar (Some (VPtr TDefaultRecord None)))
       s_init.

Lemma s_foo_registry_ok : registry_ok decls s_foo.
Proof. intros k t Hk. by destruct (s_foo_lookup k t Hk) as [_ ->]. Qed.

Lemma s_foo_steps : steps decls s_init [slice_bytes tag_foo] s_foo.
Proof.
  exact (steps_register decls _ [] _ tag_foo (ptr_to Foo)
           (steps_refl decls _)).
Qed.

Lemma X1_witness :
  heap s_init !! 1%positive = Some (VDefaultRecord r_used) /\
  exists c : slice,
    heap (exec (Record_UnmarshalRecord decls default_ptr SNil) s_init)
      !! 1%positive
    = Some (VDefaultRecord {| Contents := c |}) /\
    is_nil c = false /\ slice_bytes c = [].
Proof.
  split; [reflexivity|].
  exact (proj1 (X1_UnmarshalRecord_overwrites_receiver_only tyname value E
                  decls SNil r_used 1%positive s_init eq_refl)).
Defined.

Lemma tag_bar_absent :
  payloadTypeRegistry s_foo !! string_of_slice tag_bar = None.
Proof. vm_compute. reflexivity. Qed.

Lemma tag_foo_present :
  payloadTypeRegistry s_foo !! string_of_slice tag_foo = Some (TUser Foo).
Proof. vm_compute. reflexivity. Qed.

Lemma X2_witness :
  payloadTypeRegistry s_foo !! string_of_slice tag_bar = None /\
  exists (rec : iface tyname value) (out : slice),
    eval (unmarshalRecordPayload decls tag_bar payload) s_foo
    = Ok (rec, None) /\
    Record_MarshalRecord decls rec
      (exec (unmarshalRecordPayload decls tag_bar payload) s_foo)
    = (Ok (out, None),
       exec (unmarshalRecordPayload decls tag_bar payload) s_foo) /\
    slice_bytes out = slice_bytes payload /\
    is_nil out = false.
Proof.
  split; [exact tag_bar_absent|].
  exact (X2_decode_unregistered_then_marshal tyname value E decls tag_bar
           payload s_foo tag_bar_absent).
Defined.

Lemma X4_witness :
  slice_bytes tag_foo <> slice_bytes tag_bar /\
  exec (RegisterPayloadType decls tag_bar (ptr_to Bar))
       (exec (RegisterPayloadType decls tag_foo (ptr_to Foo)) s_init)
  = exec (RegisterPayloadType decls tag_foo (ptr_to Foo))
         (exec (RegisterPayloadType decls tag_bar (ptr_to Bar)) s_init).
Proof.
  assert (slice_bytes tag_foo <> slice_bytes tag_bar) as Hne
    by discriminate.
  split; [exact Hne|].
  exact (proj1 (X4_registrations_commute tyname value E decls tag_foo
                  tag_bar (ptr_to Foo) (ptr_to Bar) s_init) Hne).
Defined.

Lemma X5_witness :
  steps decls s_init [slice_bytes tag_foo] s_foo /\
  forall k t, payloadTypeRegistry s_foo !! k = Some t ->
              payloadTypeRegistry s_init !! k = Some t \/
              list_byte_of_string k ∈ [slice_bytes tag_foo].
Proof.
  split; [exact s_foo_steps|].
  exact (proj2 (X5_entries_are_never_removed tyname value E decls s_init
                  s_foo [slice_bytes tag_foo] s_foo_steps)).
Defined.

Lemma X6_witness :
  well_typed_Record decls (ptr_to Foo) = true /\ registry_ok decls s_foo.
Proof.
  split; [reflexivity|].
  pose proof (X6_registry_ok_invariant tyname value E decls)
    as (Hinit & Hreg & _).
  exact (Hreg s_init tag_foo (ptr_to Foo) (Hinit _) eq_refl).
Defined.

Lemma X7_witness :
  registry_ok decls s_foo /\
  eval (blankRecordForPayloadType decls tag_bar) s_foo
  = Ok (Some (VPtr TDefaultRecord (Some 2%positive)), None).
Proof.
  split; [exact s_foo_registry_ok|].
  pose proof (proj1 (X7_blankRecordForPayloadType_total tyname value E
                       decls tag_bar s_foo s_foo_registry_ok)) as Hb.
  unfold eval. rewrite Hb. vm_compute. reflexivity.
Defined.

Lemma X8_witness :
  eval (unmarshalRecordPayload decls tag_foo SNil) s_foo
  = Ok (None, Some "foo: empty payload"%string) /\
  (None : iface tyname value) = None /\
  Some "foo: empty payload"%string <> (None : error E).
Proof.
  assert (eval (unmarshalRecordPayload decls tag_foo SNil) s_foo
          = Ok (None, Some "foo: empty payload"%string)) as Hd
    by (vm_compute; reflexivity).
  split; [exact Hd|].
  destruct (X8_unmarshalRecordPayload_record_xor_error tyname value E decls
              tag_foo SNil s_foo _ _ Hd) as [[Hcontra _]|Hr];
    [discriminate|exact Hr].
Defined.


Lemma X10_witness :
  payloadTypeRegistry s_foo !! string_of_slice tag_foo = Some (TUser Foo) /\
  heap (exec (unmarshalRecordPayload decls tag_foo payload) s_foo)
    !! fresh (dom (heap s_foo))
  = Some (VUser Foo (slice_bytes payload)).
Proof.
  split; [exact tag_foo_present|].
  exact (proj2 (X10_decode_registered_success tyname value E decls tag_foo
                  payload Foo (methods Foo) (slice_bytes payload) s_foo
                  tag_foo_present eq_refl eq_refl)).
Defined.

Lemma X11_witness :
  iteration_order s_foo [(string_of_slice tag_foo, TUser Foo)] /\
  exists (tag : slice) (found : bool),
    payloadTypeForRecord decls [(string_of_slice tag_foo, TUser Foo)]
      (ptr_to Bar) s_foo
    = (Ok (tag, found), s_foo) /\
    is_nil tag = false /\
    (found = true <->
     exists k, payloadTypeRegistry s_foo !! k = Some (TUser Bar)) /\
    (found = true ->
     payloadTypeRegistry s_foo !! string_of_slice tag = Some (TUser Bar)).
Proof.
  split; [exact s_foo_order|].
  exact (X11_payloadTypeForRecord_sound_and_complete tyname value E decls
           s_foo _ (ptr_to Bar) (TUser Bar) s_foo_order eq_refl).
Defined.




Lemma X14_witness :
  getValueType decls (ptr_to Foo) = Ok (TUser Foo) /\
  payloadTypeRegistry s_foo !! string_of_slice tag_foo = Some (TUser Foo) /\
  exists order : list (string * rtype tyname),
    iteration_order s_foo order /\
    payloadTypeForRecord decls order (ptr_to Foo) s_foo
    = (Ok (slice_of_string (string_of_slice tag_foo), true), s_foo).
Proof.
  split; [reflexivity|]. split; [exact tag_foo_present|].
  exact (X14_any_matching_tag_may_be_returned tyname value E decls s_foo
           (ptr_to Foo) (TUser Foo) _ eq_refl tag_foo_present).
Defined.

Lemma X15_witness :
  eval (payloadTypeForRecord decls
          [(string_of_slice tag_foo, TUser Foo)] None) s_foo
  = Panic.
Proof.
  exact (proj2 (X15_payloadTypeForRecord_panics_on_nil_only tyname value E
                  decls _ None s_foo) eq_refl).
Defined.

Lemma tag_bar_DefaultRecord :
  payloadTypeRegistry s_def !! string_of_slice tag_bar
  = Some TDefaultRecord.
Proof. vm_compute. reflexivity. Qed.

Lemma X16_witness :
  payloadTypeRegistry s_def !! string_of_slice tag_bar
  = Some TDefaultRecord /\
  blankRecordForPayloadType decls tag_bar s_def
  = (Ok (Some (VPtr TDefaultRecord (Some (fresh (dom (heap s_def))))),
         None),
     set_heap <[fresh (dom (heap s_def))
                := VDefaultRecord {| Contents := SNil |}]> s_def).
Proof.
  split; [exact tag_bar_DefaultRecord|].
  exact (proj1 (X16_registered_DefaultRecord_decodes_as_fallback tyname
                  value E decls tag_bar payload s_def
                  tag_bar_DefaultRecord)).
Defined.

End Example.
